(** * tlshunter: the risk classifier of cmd/tlshunter/tlshunter.go

    A shallow embedding of [SDKVersionToAndroidMajor], [Analyze] and
    the method [check] of [Analysis], together with the decoded data types of
    internal/manifest/manifest.go, and the properties of the classifier
    stated over that embedding.

    Conventions.
    - Go [int] values are [Z]; loop indices ([range] positions) are [nat].
    - A Go pointer [*T] is [option T]; [None] is the nil pointer.  A value
      of [option bool] is the tri-state attribute ([nil], [true], [false]).
    - A dereference of a nil pointer panics.  A computation that may panic
      returns [option]; [None] is the panic.
    - A Go call returning [(v, err)] is modelled by [option]: [None] is
      [err != nil].
    - Strings are byte strings ([String.string]). *)

From Stdlib Require Import ZArith List Bool Lia.
From Stdlib Require Import Ascii String DecimalString DecimalNat.
From Stdlib Require Import QArith.
Import ListNotations.

Local Open Scope Z_scope.

(** ** Go's [strings] package (the functions the classifier calls) *)
Module strings.

(** [strings.HasPrefix(s, prefix)] *)
Fixpoint HasPrefix (s prefix : string) : bool :=
  match prefix with
  | EmptyString => true
  | String p prefix' =>
      match s with
      | EmptyString => false
      | String c s' => Ascii.eqb c p && HasPrefix s' prefix'
      end
  end.

(** [strings.TrimPrefix(s, prefix)] for a non-empty [prefix]: the prefix
    is removed once when [s] starts with it. *)
Fixpoint dropBytes (n : nat) (s : string) : string :=
  match n with
  | O => s
  | S n' => match s with EmptyString => EmptyString | String _ s' => dropBytes n' s' end
  end.

Definition TrimPrefix (s prefix : string) : string :=
  if HasPrefix s prefix then dropBytes (String.length prefix) s else s.

(** [strings.Contains(s, substr)] *)
Fixpoint Contains (s substr : string) : bool :=
  HasPrefix s substr ||
  match s with
  | EmptyString => false
  | String _ s' => Contains s' substr
  end.

(** [strings.ToLower(s)] on bytes: the ASCII letters [A-Z] are mapped to
    [a-z]; every other byte is kept.  (Go maps non-ASCII runes through the
    Unicode tables; no such rune lowers to one of the letters of the
    needle the classifier searches for.) *)
Definition lowerByte (c : ascii) : ascii :=
  let n := nat_of_ascii c in
  if (65 <=? n)%nat && (n <=? 90)%nat then ascii_of_nat (n + 32) else c.

Fixpoint ToLower (s : string) : string :=
  match s with
  | EmptyString => EmptyString
  | String c s' => String (lowerByte c) (ToLower s')
  end.

End strings.

(** ** Go's [fmt] verbs used by the classifier *)
Module fmt.

(** [%d] of a non-negative [int]. *)
Definition d (i : nat) : string := NilZero.string_of_uint (Nat.to_uint i).

(** The double quote character that the two proxy reasons put around the
    certificate subject. *)
Definition dquote : string := String (ascii_of_nat 34) EmptyString.

End fmt.

(** ** [strconv.ParseInt(s, 16, 32)] *)
Module strconv.

Definition hexDigit (c : ascii) : option Z :=
  let n := Z.of_nat (nat_of_ascii c) in
  if (48 <=? n) && (n <=? 57) then Some (n - 48)
  else if (97 <=? n) && (n <=? 102) then Some (n - 97 + 10)
  else if (65 <=? n) && (n <=? 70) then Some (n - 65 + 10)
  else None.

Fixpoint hexDigits (acc : Z) (s : string) : option Z :=
  match s with
  | EmptyString => Some acc
  | String c s' =>
      match hexDigit c with
      | Some v => hexDigits (acc * 16 + v) s'
      | None => None
      end
  end.

(** [ParseUint(s, 16, _)]: the empty string and any byte that is not a
    hexadecimal digit are syntax errors (an explicit base admits neither
    a [0x] prefix nor underscores).  The magnitude is returned unbounded;
    [ParseInt] below rejects what does not fit. *)
Definition ParseUint16 (s : string) : option Z :=
  match s with
  | EmptyString => None
  | _ => hexDigits 0 s
  end.

(** [ParseInt(s, 16, 32)]: an optional sign, then [ParseUint]; a value
    outside [-2^31, 2^31-1] is a range error. *)
Definition ParseInt_16_32 (s : string) : option Z :=
  match s with
  | EmptyString => None
  | String c s' =>
      let neg := Ascii.eqb c "-"%char in
      let body := if Ascii.eqb c "+"%char || neg then s' else s in
      match ParseUint16 body with
      | None => None
      | Some un =>
          let cutoff := 2 ^ 31 in
          if negb neg && (cutoff <=? un) then None
          else if neg && (cutoff <? un) then None
          else Some (if neg then - un else un)
      end
  end.

(** The conversion [uint32(resId)] of an [int64]. *)
Definition uint32 (v : Z) : Z := v mod 2 ^ 32.

End strconv.

(** ** Go's [time] package: [Parse] with the layout ["2006-01-02"],
       [Until] and [Duration.Hours] *)
Module time.

(** An instant, in nanoseconds since the Unix epoch (UTC). *)
Definition Time := Z.
(** [int64] nanoseconds. *)
Definition Duration := Z.

Definition Second : Duration := 1000000000.
Definition Hour : Duration := 3600 * Second.
Definition minDuration : Duration := - 2 ^ 63.
Definition maxDuration : Duration := 2 ^ 63 - 1.

Definition isDigit (c : ascii) : bool :=
  let n := nat_of_ascii c in (48 <=? n)%nat && (n <=? 57)%nat.

Definition digit (c : ascii) : Z := Z.of_nat (nat_of_ascii c) - 48.

Definition isLeap (year : Z) : bool :=
  (year mod 4 =? 0) && (negb (year mod 100 =? 0) || (year mod 400 =? 0)).

Definition daysIn (month year : Z) : Z :=
  if (month =? 2) && isLeap year then 29
  else match month with
       | 1 | 3 | 5 | 7 | 8 | 10 | 12 => 31
       | 4 | 6 | 9 | 11 => 30
       | 2 => 28
       | _ => 0
       end.

(** Days from 1970-01-01 to the civil date [year-month-day] of the
    proleptic Gregorian calendar. *)
Definition daysSinceEpoch (year month day : Z) : Z :=
  let y := if month <=? 2 then year - 1 else year in
  let era := y / 400 in
  let yoe := y - era * 400 in
  let mp := if month <=? 2 then month + 9 else month - 3 in
  let doy := (153 * mp + 2) / 5 + day - 1 in
  let doe := yoe * 365 + yoe / 4 - yoe / 100 + doy in
  era * 146097 + doe - 719468.

(** [time.Date(year, month, day, 0, 0, 0, 0, time.UTC)] *)
Definition Date (year month day : Z) : Time :=
  daysSinceEpoch year month day * 24 * Hour.

(** [time.Parse("2006-01-02", value)]: exactly four digits, a dash, two
    digits, a dash, two digits and nothing else; the month must lie in
    1..12 and the day in 1..[daysIn]. *)
Definition Parse_2006_01_02 (value : string) : option Time :=
  match value with
  | String y1 (String y2 (String y3 (String y4 (String s1
    (String m1 (String m2 (String s2
    (String d1 (String d2 EmptyString))))))))) =>
      if isDigit y1 && isDigit y2 && isDigit y3 && isDigit y4
         && Ascii.eqb s1 "-"%char
         && isDigit m1 && isDigit m2
         && Ascii.eqb s2 "-"%char
         && isDigit d1 && isDigit d2
      then
        let year := digit y1 * 1000 + digit y2 * 100 + digit y3 * 10 + digit y4 in
        let month := digit m1 * 10 + digit m2 in
        let day := digit d1 * 10 + digit d2 in
        if (month <=? 0) || (12 <? month) then None
        else if (day <? 1) || (daysIn month year <? day) then None
        else Some (Date year month day)
      else None
  | _ => None
  end.

(** [t.Sub(u)]: the difference, saturated to the range of [Duration]. *)
Definition Sub (t u : Time) : Duration :=
  let d := t - u in
  if d <? minDuration then minDuration
  else if maxDuration <? d then maxDuration
  else d.

(** [time.Until(t)] when the wall clock reads [now]. *)
Definition Until (now t : Time) : Duration := Sub t now.

(** [d.Hours()]: [float64(d / Hour) + float64(d % Hour) / (60*60*1e9)],
    read as an exact rational.  The classifier only compares it with
    [10*24]: the integer part is exactly representable, a non-zero
    fraction is at least 1/(3.6e12), far above the spacing of doubles
    near 240, and rounding is monotone, so the comparison on doubles has
    the truth value of the comparison on rationals. *)
Definition Hours (d : Duration) : Q :=
  (inject_Z (Z.quot d Hour) + Qmake (Z.rem d Hour) 3600000000000)%Q.

End time.

(** ** [SDKVersionToAndroidMajor] *)

Definition SDKVersionToAndroidMajor (sdkVersion : Z) : Z :=
  match sdkVersion with
  | 1 | 2 | 3 | 4 => 1
  | 5 | 6 | 7 | 8 | 9 | 10 => 2
  | 11 | 12 | 13 => 3
  | 14 | 15 | 16 | 17 | 18 | 19 | 20 => 4
  | 21 | 22 => 5
  | 23 => 6
  | 24 | 25 => 7
  | 26 | 27 => 8
  | 28 => 9
  | 29 => 10
  | 30 => 11
  | 31 | 32 => 12
  | 33 => 13
  | _ => 13
  end.

(** ** The decoded manifest and network security configuration
       (internal/manifest/manifest.go).  The [XMLName] fields, which only
       steer the decoder, are left out; a field is named after its struct
       and its Go name. *)
Module manifest.

Record UsesSDK := mkUsesSDK {
  UsesSDK_MinSDKVersion : Z;
  UsesSDK_TargetSDKVersion : Z }.

Record Application := mkApplication {
  Application_Name : string;
  Application_Label : string;
  Application_NetworkSecurityConfig : string;
  Application_UsesCleartextTraffic : option bool;
  Application_Debuggable : option bool }.

Record Manifest := mkManifest {
  Manifest_UsesSDK : UsesSDK;
  Manifest_Application : Application }.

Record Certificates := mkCertificates {
  Certificates_Src : string;
  Certificates_OverridePins : option bool }.

Record TrustAnchors := mkTrustAnchors {
  TrustAnchors_Certificates : list (option Certificates) }.

Record Pin := mkPin {
  Pin_Digest : string;
  Pin_Data : string }.

Record PinSet := mkPinSet {
  PinSet_Expiration : string;
  PinSet_Pins : list (option Pin) }.

Record Domain := mkDomain {
  Domain_IncludeSubdomains : bool;
  Domain_Data : string }.

Record BaseConfig := mkBaseConfig {
  BaseConfig_CleartextTrafficPermitted : option bool;
  BaseConfig_TrustAnchors : option TrustAnchors }.

#[local] Unset Elimination Schemes.
Inductive DomainConfig := mkDomainConfig {
  DomainConfig_CleartextTrafficPermitted : option bool;
  DomainConfig_Domains : list (option Domain);
  DomainConfig_TrustAnchors : option TrustAnchors;
  DomainConfig_PinSet : option PinSet;
  DomainConfig_Children : list (option DomainConfig) }.
#[local] Set Elimination Schemes.

Record DebugOverrides := mkDebugOverrides {
  DebugOverrides_TrustAnchors : option TrustAnchors }.

Record NetworkSecurityConfig := mkNetworkSecurityConfig {
  NSC_BaseConfig : option BaseConfig;
  NSC_DomainConfig : list (option DomainConfig);
  NSC_DebugOverrides : option DebugOverrides }.

End manifest.
Import manifest.

(** ** The collaborators of the classifier: the resource table and the
       archive of [apkparser], and [crypto/x509].  They are not part of
       this repository and are taken by the signatures of the calls that
       [check] makes. *)
Record Collaborators := mkCollaborators {
  ResourceEntry : Type;
  ZipReaderFile : Type;
  Certificate : Type;
  (** [a.resources.GetResourceEntry(id)] *)
  GetResourceEntry : Z -> option ResourceEntry;
  (** [entry.GetValue().String()], whose error the caller drops *)
  GetValue_String : ResourceEntry -> string;
  (** [a.zip.File[filename]]: a map lookup, nil when there is no entry *)
  zip_File : string -> option ZipReaderFile;
  (** [Open()] on the file found: [true] when the error is nil *)
  Open : option ZipReaderFile -> bool;
  (** [io.ReadAll(file)] *)
  io_ReadAll : option ZipReaderFile -> option string;
  (** [x509.ParseCertificate(ca)] *)
  x509_ParseCertificate : string -> option Certificate;
  (** [cert.Subject.String()] *)
  Subject_String : Certificate -> string }.

(** ** Risks *)

Inductive RiskType :=
| RiskNSCMissing
| RiskCleartext
| RiskUserAnchors
| RiskAnchorsOverridePinning
| RiskUnpinned
| RiskPinningExpiration
| RiskProxyAnchors
| RiskMalformedNSC.

Record Risk := mkRisk {
  Risk_Type : RiskType;
  Risk_Reason : string }.

Record AndroidDefaults := mkAndroidDefaults {
  AllowCleartext : bool;
  NSCPresence : bool }.

(** The fields [zip] and [resources] of the Go struct are the field
    [apk]; [m] is not nil, [Analyze] having read [m.Application.Name]. *)
Record Analysis := mkAnalysis {
  File : string;
  Name : string;
  TargetVersion : Z;
  Risks : list Risk;
  defaults : AndroidDefaults;
  m : Manifest;
  nsc : option NetworkSecurityConfig;
  apk : Collaborators }.

Definition RiskType_eqb (a b : RiskType) : bool :=
  match a, b with
  | RiskNSCMissing, RiskNSCMissing
  | RiskCleartext, RiskCleartext
  | RiskUserAnchors, RiskUserAnchors
  | RiskAnchorsOverridePinning, RiskAnchorsOverridePinning
  | RiskUnpinned, RiskUnpinned
  | RiskPinningExpiration, RiskPinningExpiration
  | RiskProxyAnchors, RiskProxyAnchors
  | RiskMalformedNSC, RiskMalformedNSC => true
  | _, _ => false
  end.

(** [Description] of a risk type. *)
Definition Description (t : RiskType) : string :=
  match t with
  | RiskNSCMissing => "Android network security configuration is missing."
  | RiskCleartext => "Allow cleartext traffic to be transferred."
  | RiskUserAnchors => "Allow users to trust 3rd-party CAs."
  | RiskAnchorsOverridePinning => "Trust anchors override pinned certificates."
  | RiskUnpinned => "Does not pin any certificates."
  | RiskProxyAnchors => "Trust anchors contain proxy tool CA."
  | RiskMalformedNSC => "Domains in NSC contain invalid hostnames."
  | _ => "(unknown)"
  end.

(** ** Panics: a computation that dereferences a nil pointer has no result *)

Definition bind {A B : Type} (c : option A) (k : A -> option B) : option B :=
  match c with
  | Some a => k a
  | None => None
  end.

Notation "x <- c ;; k" := (bind c (fun x => k))
  (at level 61, c at next level, right associativity).
Notation "' pat <- c ;; k" := (bind c (fun x => match x with pat => k end))
  (at level 61, pat pattern, c at next level, right associativity).

(** ** [flattenDomainConfig], the closure declared inside [check]

    The closure recurses over a slice of nodes and, for each node, over
    the slice of its children.  [flattenNode] is the body of the loop for
    one non-nil node (the node, then the flattening of its children);
    [flattenDomainConfig] is the loop.  A nil element is not appended, and
    the expression [domainConfig.Children] that follows panics on it.
    Both revisions of the program under src/ have the same closure. *)
Fixpoint flattenNode (domainConfig : DomainConfig) : option (list DomainConfig) :=
  ret <- (fix flattenChildren (domainConfigs : list (option DomainConfig)) :=
            match domainConfigs with
            | [] => Some []
            | None :: _ => None
            | Some child :: rest =>
                a <- flattenNode child ;;
                b <- flattenChildren rest ;;
                Some (a ++ b)
            end) (DomainConfig_Children domainConfig) ;;
  Some (domainConfig :: ret).

Fixpoint flattenDomainConfig (domainConfigs : list (option DomainConfig))
  : option (list DomainConfig) :=
  match domainConfigs with
  | [] => Some []
  | None :: _ => None
  | Some domainConfig :: rest =>
      a <- flattenNode domainConfig ;;
      b <- flattenDomainConfig rest ;;
      Some (a ++ b)
  end.

(** ** [check]

    [check] appends to [ret]; here every part of it returns the risks it
    appends, in order, and the parts are concatenated. *)
Section Check.

Local Open Scope string_scope.

(** The collaborators ([a.zip], [a.resources], [crypto/x509]) and the
    reading of the wall clock that [time.Until] takes: the calls of one
    run of [check] are given the same reading. *)
Variable E : Collaborators.
Variable now : time.Time.

(** The resolution of a trust-anchor source to the subject of its
    certificate: the statements from [strings.TrimPrefix] to
    [x509.ParseCertificate], which the base-config loop and the
    domain-config loop both contain, word for word.  [None] is one of
    their [continue]s. *)
Definition resolveSubject (src : string) : option string :=
  let res := strings.TrimPrefix src "@" in
  match strconv.ParseInt_16_32 res with
  | None => None
  | Some resId =>
      match GetResourceEntry E (strconv.uint32 resId) with
      | None => None
      | Some entry =>
          let filename := GetValue_String E entry in
          if negb (Open E (zip_File E filename)) then None
          else
            match io_ReadAll E (zip_File E filename) with
            | None => None
            | Some ca =>
                match x509_ParseCertificate E ca with
                | None => None
                | Some cert => Some (Subject_String E cert)
                end
            end
      end
  end.

(** [fmt.Sprintf("%s trust anchors (index: %d)", section, i)] *)
Definition anchorsSection (section : string) (i : nat) : string :=
  section ++ " trust anchors (index: " ++ fmt.d i ++ ")".

(** [fmt.Sprintf("%s sub config (index: %d)", section, i)] *)
Definition subConfigSection (section : string) (i : nat) : string :=
  section ++ " sub config (index: " ++ fmt.d i ++ ")".

(** The body of the loop over [anchors.Certificates] of the base
    config, at index [i]. *)
Definition baseAnchor (section : string) (i : nat) (certs : option Certificates)
  : option (list Risk) :=
  match certs with
  | None => None
  | Some certs =>
      let section := anchorsSection section i in
      Some
        ((if Certificates_Src certs =? "user"
          then [mkRisk RiskUserAnchors (section ++ " allow user CAs.")]
          else [])
         ++
         (match Certificates_OverridePins certs with
          | Some true =>
              [mkRisk RiskAnchorsOverridePinning (section ++ " override certificate pinning.")]
          | _ => []
          end)
         ++
         (if negb (Certificates_Src certs =? "system") && negb (Certificates_Src certs =? "user")
          then
            match resolveSubject (Certificates_Src certs) with
            | None => []
            | Some subject =>
                if strings.Contains (strings.ToLower subject) "proxy"
                then [mkRisk RiskUserAnchors
                        (section ++ " contain proxy tool CA with subject "
                           ++ fmt.dquote ++ subject ++ fmt.dquote ++ ".")]
                else []
            end
          else []))%list
  end.

Fixpoint baseAnchors (section : string) (i : nat) (l : list (option Certificates))
  : option (list Risk) :=
  match l with
  | [] => Some []
  | certs :: rest =>
      r <- baseAnchor section i certs ;;
      rs <- baseAnchors section (S i) rest ;;
      Some (r ++ rs)%list
  end.

(** The base-config block. *)
Definition baseConfigRisks (defaults : AndroidDefaults) (section : string)
    (baseConfig : option BaseConfig) : option (list Risk) :=
  let section := section ++ " base config" in
  match baseConfig with
  | None =>
      Some (if AllowCleartext defaults
            then [mkRisk RiskCleartext (section ++ " defaults permit cleartext traffic.")]
            else [])
  | Some baseConfig =>
      let cleartext :=
        match BaseConfig_CleartextTrafficPermitted baseConfig with
        | None =>
            if AllowCleartext defaults
            then [mkRisk RiskCleartext (section ++ " defaults permit cleartext traffic.")]
            else []
        | Some true => [mkRisk RiskCleartext (section ++ " permits cleartext traffic.")]
        | Some false => []
        end in
      r <- match BaseConfig_TrustAnchors baseConfig with
           | Some anchors => baseAnchors section 0 (TrustAnchors_Certificates anchors)
           | None => Some []
           end ;;
      Some (cleartext ++ r)%list
  end.

(** The condition [err != nil || time.Until(expiration).Hours() <= 10*24]
    on the expiration of a pin set. *)
Definition expired (expiration : string) : bool :=
  match time.Parse_2006_01_02 expiration with
  | None => true
  | Some expiration => Qle_bool (time.Hours (time.Until now expiration)) (10 * 24)
  end.

(** The loop over [domainConfig.Domains]. *)
Fixpoint domainsRisks (section : string) (l : list (option Domain)) : option (list Risk) :=
  match l with
  | [] => Some []
  | None :: _ => None
  | Some domain :: rest =>
      rs <- domainsRisks section rest ;;
      Some ((if strings.HasPrefix (Domain_Data domain) "http"
             then [mkRisk RiskMalformedNSC
                     (section ++ " domains contain malformed hostname "
                        ++ fmt.dquote ++ Domain_Data domain ++ fmt.dquote ++ ".")]
             else []) ++ rs)%list
  end.

(** The body of the loop over [domainConfig.TrustAnchors.Certificates]. *)
Definition domainAnchor (section : string) (certs : option Certificates)
  : option (list Risk) :=
  match certs with
  | None => None
  | Some certs =>
      Some
        (if negb (Certificates_Src certs =? "system") && negb (Certificates_Src certs =? "user")
         then
           match resolveSubject (Certificates_Src certs) with
           | None => []
           | Some subject =>
               if strings.Contains (strings.ToLower subject) "proxy"
               then [mkRisk RiskUserAnchors
                       (section ++ " trust anchors contain proxy tool CA with subject "
                          ++ fmt.dquote ++ subject ++ fmt.dquote ++ ".")]
               else []
           end
         else [])
  end.

Fixpoint domainAnchors (section : string) (l : list (option Certificates))
  : option (list Risk) :=
  match l with
  | [] => Some []
  | certs :: rest =>
      r <- domainAnchor section certs ;;
      rs <- domainAnchors section rest ;;
      Some (r ++ rs)%list
  end.

(** What the pin set of a node appends, and whether it sets [pinned]. *)
Definition pinSetRisks (section : string) (pinSet : option PinSet) : list Risk :=
  match pinSet with
  | Some pinSet =>
      if expired (PinSet_Expiration pinSet)
      then [mkRisk RiskPinningExpiration (section ++ " pin set (will) hit its expiration.")]
      else []
  | None => []
  end.

Definition hasPins (domainConfig : DomainConfig) : bool :=
  match DomainConfig_PinSet domainConfig with
  | Some pinSet => (0 <? List.length (PinSet_Pins pinSet))%nat
  | None => false
  end.

(** The body of the loop over the flattened nodes, at index [i]: the
    risks appended and the new value of [pinned]. *)
Definition subConfig (section : string) (i : nat) (domainConfig : DomainConfig)
    (pinned : bool) : option (list Risk * bool) :=
  let section := subConfigSection section i in
  r2 <- domainsRisks section (DomainConfig_Domains domainConfig) ;;
  r3 <- match DomainConfig_TrustAnchors domainConfig with
        | Some anchors => domainAnchors section (TrustAnchors_Certificates anchors)
        | None => Some []
        end ;;
  Some ((pinSetRisks section (DomainConfig_PinSet domainConfig) ++ r2 ++ r3)%list,
        if hasPins domainConfig then true else pinned).

Fixpoint subConfigs (section : string) (i : nat) (l : list DomainConfig) (pinned : bool)
  : option (list Risk * bool) :=
  match l with
  | [] => Some ([], pinned)
  | domainConfig :: rest =>
      '(r, pinned) <- subConfig section i domainConfig pinned ;;
      '(rs, pinned) <- subConfigs section (S i) rest pinned ;;
      Some ((r ++ rs)%list, pinned)
  end.

(** The domain-config block. *)
Definition domainConfigRisks (section : string) (domainConfig : list (option DomainConfig))
  : option (list Risk) :=
  let section := section ++ " domain config" in
  domainConfigs <- flattenDomainConfig domainConfig ;;
  '(r, pinned) <- subConfigs section 0 domainConfigs false ;;
  Some (r ++
        (if negb pinned
         then [mkRisk RiskUnpinned (section ++ " does not contain pinned certificates.")]
         else []))%list.

(** The branch taken when there is no network security configuration. *)
Definition manifestRisks (defaults : AndroidDefaults) (app : Application) : list Risk :=
  let section := "Manifest" in
  ((if NSCPresence defaults
    then [mkRisk RiskNSCMissing
            (section ++ " does not specify NSC where target Android version supports it.")]
    else [])
   ++
   (match Application_UsesCleartextTraffic app with
    | None =>
        if AllowCleartext defaults
        then [mkRisk RiskCleartext (section ++ " defaults permit cleartext traffic.")]
        else []
    | Some true => [mkRisk RiskCleartext (section ++ " permits cleartext traffic.")]
    | Some false => []
    end))%list.

End Check.

Definition check (a : Analysis) (now : time.Time) : option (list Risk) :=
  let app := Manifest_Application (m a) in
  let defaults := defaults a in
  match nsc a with
  | Some nsc =>
      let section := "NSC"%string in
      r1 <- baseConfigRisks (apk a) defaults section (NSC_BaseConfig nsc) ;;
      r2 <- domainConfigRisks (apk a) now section (NSC_DomainConfig nsc) ;;
      Some (r1 ++ r2)
  | None => Some (manifestRisks defaults app)
  end.

(** ** [Analyze]: the error returned is always nil; [None] is a panic of
       [check]. *)
Definition Analyze (now : time.Time) (file : string) (m : Manifest)
    (nsc : option NetworkSecurityConfig) (apk : Collaborators) : option Analysis :=
  let major := SDKVersionToAndroidMajor (UsesSDK_TargetSDKVersion (Manifest_UsesSDK m)) in
  let ret := mkAnalysis file (Application_Name (Manifest_Application m)) major []
               (mkAndroidDefaults false false) m nsc apk in
  let dflt := mkAndroidDefaults (major <? 9) (7 <=? major) in
  let ret := mkAnalysis (File ret) (Name ret) (TargetVersion ret) (Risks ret) dflt m nsc apk in
  risks <- check ret now ;;
  Some (mkAnalysis (File ret) (Name ret) (TargetVersion ret) risks dflt m nsc apk).

(** ** Measures and well-formedness of the decoded input *)

(** The number of risks of a given type in a sequence. *)
Definition countType (t : RiskType) (l : list Risk) : nat :=
  List.length (filter (fun r => RiskType_eqb (Risk_Type r) t) l).

(** The number of nodes of a forest, and the number of levels it has. *)
Fixpoint nodeCountNode (domainConfig : DomainConfig) : nat :=
  S ((fix children (l : list (option DomainConfig)) : nat :=
        match l with
        | [] => O
        | None :: rest => children rest
        | Some child :: rest => (nodeCountNode child + children rest)%nat
        end) (DomainConfig_Children domainConfig)).

Fixpoint nodeCount (forest : list (option DomainConfig)) : nat :=
  match forest with
  | [] => O
  | None :: rest => nodeCount rest
  | Some domainConfig :: rest => (nodeCountNode domainConfig + nodeCount rest)%nat
  end.

Fixpoint depthNode (domainConfig : DomainConfig) : nat :=
  S ((fix children (l : list (option DomainConfig)) : nat :=
        match l with
        | [] => O
        | None :: rest => children rest
        | Some child :: rest => Nat.max (depthNode child) (children rest)
        end) (DomainConfig_Children domainConfig)).

Fixpoint forestDepth (forest : list (option DomainConfig)) : nat :=
  match forest with
  | [] => O
  | None :: rest => forestDepth rest
  | Some domainConfig :: rest => Nat.max (depthNode domainConfig) (forestDepth rest)
  end.




Fixpoint noNilNode (domainConfig : DomainConfig) : bool :=
  (fix children (l : list (option DomainConfig)) : bool :=
     match l with
     | [] => true
     | None :: _ => false
     | Some child :: rest => noNilNode child && children rest
     end) (DomainConfig_Children domainConfig).

Fixpoint noNilForest (forest : list (option DomainConfig)) : bool :=
  match forest with
  | [] => true
  | None :: _ => false
  | Some domainConfig :: rest => noNilNode domainConfig && noNilForest rest
  end.


(** A chain of [n] nested domain configs below one more, each the only
    child of its parent. *)
Fixpoint chain (n : nat) : DomainConfig :=
  mkDomainConfig None [] None None
    match n with
    | O => []
    | S n' => [Some (chain n')]
    end.

(** The claim that the flattening is bounded: no flattened sequence is
    longer than [maxNodes], and a forest with more than [maxDepth] levels
    is not flattened whole. *)
Definition flatteningBounded (maxDepth maxNodes : nat) : Prop :=
  forall forest l,
    flattenDomainConfig forest = Some l ->
    (List.length l <= maxNodes)%nat /\
    ((maxDepth < forestDepth forest)%nat -> (List.length l < nodeCount forest)%nat).

(** ** Notions used in the statements *)


(** The pin set of a node fails the test of [check] at the instant
    [now]. *)
Definition expiredNode (now : time.Time) (domainConfig : DomainConfig) : bool :=
  match DomainConfig_PinSet domainConfig with
  | Some pinSet => expired now (PinSet_Expiration pinSet)
  | None => false
  end.


(** Two readings of the wall clock give every pin set of the flattened
    nodes the same verdict. *)
Definition sameVerdicts (now1 now2 : time.Time) (nsc : option NetworkSecurityConfig)
  : bool :=
  match nsc with
  | None => true
  | Some n =>
      match flattenDomainConfig (NSC_DomainConfig n) with
      | None => true
      | Some domainConfigs =>
          forallb (fun domainConfig =>
                     Bool.eqb (expiredNode now1 domainConfig) (expiredNode now2 domainConfig))
                  domainConfigs
      end
  end.



(** ** Sample inputs *)

(** An archive with one certificate resource, [0x7f010000], stored as
    res/raw/ca.der, whose subject names an interception proxy; the
    resource [0x7f010001] names a file that the archive does not hold. *)
Definition sampleApk : Collaborators :=
  {| ResourceEntry := string;
     ZipReaderFile := string;
     Certificate := string;
     GetResourceEntry := fun id =>
       if id =? 2130771968 then Some "res/raw/ca.der"%string
       else if id =? 2130771969 then Some "res/raw/gone.der"%string
       else None;
     GetValue_String := fun entry => entry;
     zip_File := fun filename =>
       if (filename =? "res/raw/ca.der")%string then Some "CN=mitmproxy,O=mitmproxy"%string
       else None;
     Open := fun file => match file with Some _ => true | None => false end;
     io_ReadAll := fun file => file;
     x509_ParseCertificate := fun ca => Some ca;
     Subject_String := fun cert => cert |}.

Definition sampleManifest (targetSdkVersion : Z) : Manifest :=
  mkManifest (mkUsesSDK 0 targetSdkVersion)
    (mkApplication "com.example.App" "App" "res/xml/nsc.xml" None None).

(** Leaf A pins one key until 2031-02-05; leaf B has no pin set. *)
Definition leafA : DomainConfig :=
  mkDomainConfig None [Some (mkDomain false "example.com")] None
    (Some (mkPinSet "2031-02-05"
             [Some (mkPin "SHA-256" "7HIpactkIAq2Y49orFOOQKurWxmmSFZhBCoQYcRhJ3Y=")]))
    [].

Definition leafB : DomainConfig :=
  mkDomainConfig None [Some (mkDomain true "example.org")] None None [].

Definition nscPinned : NetworkSecurityConfig :=
  mkNetworkSecurityConfig None [Some leafA; Some leafB] None.

Definition nscUnpinned : NetworkSecurityConfig :=
  mkNetworkSecurityConfig None [Some leafB] None.

(** The analysis that [Analyze] hands to [check] for a target SDK and a
    network security configuration. *)
Definition sampleAnalysis (targetSdkVersion : Z) (nsc : option NetworkSecurityConfig)
  : Analysis :=
  let major := SDKVersionToAndroidMajor targetSdkVersion in
  mkAnalysis "a.apk" "com.example.App" major []
    (mkAndroidDefaults (major <? 9) (7 <=? major))
    (sampleManifest targetSdkVersion) nsc sampleApk.


(** The user store as a trust anchor, of a domain config and of the base
    config. *)
Definition userAnchors : option TrustAnchors :=
  Some (mkTrustAnchors [Some (mkCertificates "user" None)]).

Definition nscUserInDomain : NetworkSecurityConfig :=
  mkNetworkSecurityConfig None
    [Some (mkDomainConfig None [Some (mkDomain false "example.com")] userAnchors
             (DomainConfig_PinSet leafA) [])]
    None.

Definition nscUserInBase : NetworkSecurityConfig :=
  mkNetworkSecurityConfig (Some (mkBaseConfig (Some false) userAnchors)) [Some leafA] None.



(** ** Proof automation *)

Create HintDb risks.
#[local] Hint Constructors Forall : risks.
#[local] Hint Resolve in_eq in_cons : risks.


(** ** Notions used in the further properties *)

(** A node of a forest: a root, or a node of the forest of children of a
    root. *)
Inductive InForest (domainConfig : DomainConfig) : list (option DomainConfig) -> Prop :=
| InForest_root (rest : list (option DomainConfig)) :
    InForest domainConfig (Some domainConfig :: rest)
| InForest_below (parent : DomainConfig) (rest : list (option DomainConfig)) :
    InForest domainConfig (DomainConfig_Children parent) ->
    InForest domainConfig (Some parent :: rest)
| InForest_later (first : option DomainConfig) (rest : list (option DomainConfig)) :
    InForest domainConfig rest ->
    InForest domainConfig (first :: rest).

(** The number of elements of a list that pass a test. *)
Definition count {A : Type} (f : A -> bool) (l : list A) : nat :=
  List.length (filter f l).

(** The sum of a measure over a list. *)
Fixpoint sumOver {A : Type} (f : A -> nat) (l : list A) : nat :=
  match l with
  | [] => O
  | a :: rest => (f a + sumOver f rest)%nat
  end.









(** The reason of the malformed-hostname risk of the flattened node [i]
    for the domain pattern [data]. *)
Definition malformedReason (i : nat) (data : string) : string :=
  (subConfigSection "NSC domain config" i ++ " domains contain malformed hostname "
     ++ fmt.dquote ++ data ++ fmt.dquote ++ ".")%string.

(** A configuration with two domain configs, the first with a URL and a
    hostname as domain patterns. *)
Definition nscUrl : NetworkSecurityConfig :=
  mkNetworkSecurityConfig None
    [Some (mkDomainConfig None
             [Some (mkDomain false "http://example.com"); Some (mkDomain false "example.com")]
             None (DomainConfig_PinSet leafA) []);
     Some leafB]
    None.

(** ** What [check] reads of a configuration

    The view of a configuration with the parts that [check] does not
    read blanked: [cleartextTrafficPermitted] of the domain configs,
    [includeSubdomains] of the domain patterns, [overridePins] of the
    trust anchors of the domain configs, the digest and value of the pins
    and the debug overrides. *)
Definition readDomain (domain : Domain) : Domain :=
  mkDomain false (Domain_Data domain).

Definition readCertificates (certs : Certificates) : Certificates :=
  mkCertificates (Certificates_Src certs) None.

Definition readAnchors (anchors : option TrustAnchors) : option TrustAnchors :=
  option_map (fun anchors =>
                mkTrustAnchors (map (option_map readCertificates)
                                  (TrustAnchors_Certificates anchors)))
             anchors.

Definition readPinSet (pinSet : PinSet) : PinSet :=
  mkPinSet (PinSet_Expiration pinSet)
    (map (option_map (fun _ => mkPin EmptyString EmptyString)) (PinSet_Pins pinSet)).

Fixpoint readNode (domainConfig : DomainConfig) : DomainConfig :=
  mkDomainConfig None
    (map (option_map readDomain) (DomainConfig_Domains domainConfig))
    (readAnchors (DomainConfig_TrustAnchors domainConfig))
    (option_map readPinSet (DomainConfig_PinSet domainConfig))
    ((fix children (l : list (option DomainConfig)) : list (option DomainConfig) :=
        match l with
        | [] => []
        | None :: rest => None :: children rest
        | Some child :: rest => Some (readNode child) :: children rest
        end) (DomainConfig_Children domainConfig)).

Fixpoint readForest (forest : list (option DomainConfig)) : list (option DomainConfig) :=
  match forest with
  | [] => []
  | None :: rest => None :: readForest rest
  | Some domainConfig :: rest => Some (readNode domainConfig) :: readForest rest
  end.

Definition readNSC (n : NetworkSecurityConfig) : NetworkSecurityConfig :=
  mkNetworkSecurityConfig (NSC_BaseConfig n) (readForest (NSC_DomainConfig n)) None.

(** Two configurations with the same view, and two manifests. *)
Definition nscPinnedVariant : NetworkSecurityConfig :=
  mkNetworkSecurityConfig None
    [Some (mkDomainConfig (Some true) [Some (mkDomain true "example.com")] None
             (Some (mkPinSet "2031-02-05" [Some (mkPin "SHA-1" "AAAA")]))
             []);
     Some leafB]
    (Some (mkDebugOverrides userAnchors)).

Definition cleartextManifest : Manifest :=
  mkManifest (mkUsesSDK 0 30)
    (mkApplication "com.example.Other" "Other" "res/xml/other.xml" (Some true) (Some true)).

(** ** The aggregation of [main]

    [riskMap] is a [map[RiskType]map[string][]*Analysis].  A Go map is an
    association list here, with one entry per key; the order of the
    entries stands for nothing (Go iterates a map in no fixed order), and
    what is stated about a map does not depend on it.  A missing key
    reads as the nil map or the nil slice. *)
Definition ReasonMap : Type := list (string * list Analysis).
Definition RiskMap : Type := list (RiskType * ReasonMap).

Fixpoint reasonGet (reasonMap : ReasonMap) (reason : string) : list Analysis :=
  match reasonMap with
  | [] => []
  | (k, apps) :: rest => if (k =? reason)%string then apps else reasonGet rest reason
  end.

Fixpoint reasonPut (reasonMap : ReasonMap) (reason : string) (apps : list Analysis)
  : ReasonMap :=
  match reasonMap with
  | [] => [(reason, apps)]
  | (k, old) :: rest =>
      if (k =? reason)%string then (k, apps) :: rest
      else (k, old) :: reasonPut rest reason apps
  end.

Fixpoint riskGet (riskMap : RiskMap) (t : RiskType) : ReasonMap :=
  match riskMap with
  | [] => []
  | (k, reasonMap) :: rest => if RiskType_eqb k t then reasonMap else riskGet rest t
  end.

Fixpoint riskPut (riskMap : RiskMap) (t : RiskType) (reasonMap : ReasonMap) : RiskMap :=
  match riskMap with
  | [] => [(t, reasonMap)]
  | (k, old) :: rest =>
      if RiskType_eqb k t then (k, reasonMap) :: rest
      else (k, old) :: riskPut rest t reasonMap
  end.

(** The body of the loop over [analysis.Risks]. *)
Definition addRisk (riskMap : RiskMap) (analysis : Analysis) (risk : Risk) : RiskMap :=
  let reasonMap := riskGet riskMap (Risk_Type risk) in
  riskPut riskMap (Risk_Type risk)
    (reasonPut reasonMap (Risk_Reason risk)
       (reasonGet reasonMap (Risk_Reason risk) ++ [analysis])).

(** The loop over [analysis.Risks], and the map after the loop over the
    files, for the analyses of the files that were parsed. *)
Definition addAnalysis (riskMap : RiskMap) (analysis : Analysis) : RiskMap :=
  fold_left (fun riskMap risk => addRisk riskMap analysis risk) (Risks analysis) riskMap.

Definition statistics (analyses : list Analysis) : RiskMap :=
  fold_left addAnalysis analyses [].

(** The count printed for a risk type: [total] after the first loop over
    its [reasonMap]. *)
Definition total (reasonMap : ReasonMap) : nat :=
  sumOver (fun entry => List.length (snd entry)) reasonMap.

(** The risks of a sequence with a given type and reason. *)
Definition sameRisk (t : RiskType) (reason : string) (risk : Risk) : bool :=
  RiskType_eqb (Risk_Type risk) t && (Risk_Reason risk =? reason)%string.

(** ** [ParseAPK] and the loading of the configuration in [main]

    The calls into [apkparser] and [encoding/xml], by their signatures.
    An error is the text that [%v] prints for it. *)
Record ApkReader := mkApkReader {
  ZipReader : Type;
  ZipFile : Type;
  ResourceTable : Type;
  (** [apkparser.OpenZip(file)] *)
  OpenZip : string -> ZipReader + string;
  (** [apkparser.ParseApkWithZip(zip, encoder)]: what the encoder wrote,
      [rErr] and [mErr] *)
  ParseApkWithZip : ZipReader -> string * option string * option string;
  (** [xml.Unmarshal(buf.Bytes(), &m)]: the manifest after the call and
      the error *)
  Unmarshal_Manifest : string -> Manifest -> Manifest * option string;
  (** [zip.File[name]] *)
  ZipReader_File : ZipReader -> string -> option ZipFile;
  (** [file.Open()] *)
  ZipFile_Open : ZipFile -> option string;
  (** [apkparser.ParseResourceTable(resourcesFile)] *)
  ParseResourceTable : ZipFile -> ResourceTable + string;
  (** [apkparser.ParseXml(zipFile, encoder, nil)]: what the encoder
      wrote, or the error *)
  ParseXml : ZipFile -> string + string;
  (** [xml.Unmarshal(buffer.Bytes(), &currentNSC)] *)
  Unmarshal_NSC : string -> NetworkSecurityConfig -> NetworkSecurityConfig * option string }.



Definition NetworkSecurityConfig_zero : NetworkSecurityConfig :=
  mkNetworkSecurityConfig None [] None.


(** The configuration that [main] hands to [Analyze]: nil unless the
    manifest names a configuration that is found, opened, decoded and
    unmarshalled without error. *)
Definition loadNSC (R : ApkReader) (zip : ZipReader R) (m : Manifest)
  : option NetworkSecurityConfig :=
  let path := Application_NetworkSecurityConfig (Manifest_Application m) in
  if (path =? EmptyString)%string then None
  else
    match ZipReader_File R zip path with
    | None => None
    | Some zipFile =>
        match ZipFile_Open R zipFile with
        | Some _ => None
        | None =>
            match ParseXml R zipFile with
            | inr _ => None
            | inl buffer =>
                match Unmarshal_NSC R buffer NetworkSecurityConfig_zero with
                | (_, Some _) => None
                | (currentNSC, None) => Some currentNSC
                end
            end
        end
    end.

(** An archive whose resource table does not parse and whose manifest
    does not unmarshal. *)
Definition brokenReader : ApkReader :=
  {| ZipReader := unit;
     ZipFile := string;
     ResourceTable := unit;
     OpenZip := fun _ => inl tt;
     ParseApkWithZip := fun _ => ("<manifest>"%string, None, None);
     Unmarshal_Manifest := fun _ m => (m, Some "expected element type <manifest>"%string);
     ZipReader_File := fun _ name =>
       if (name =? "resources.arsc")%string then Some name else None;
     ZipFile_Open := fun _ => None;
     ParseResourceTable := fun _ => inr "invalid chunk"%string;
     ParseXml := fun _ => inr "invalid chunk"%string;
     Unmarshal_NSC := fun _ n => (n, None) |}.

(** * Properties *)

(** ** The flattening *)


Lemma flattenNode_eq (domainConfig : DomainConfig) :
  flattenNode domainConfig =
  (ret <- flattenDomainConfig (DomainConfig_Children domainConfig) ;;
   Some (domainConfig :: ret)).
Proof. destruct domainConfig; reflexivity. Qed.

Lemma nodeCountNode_eq (domainConfig : DomainConfig) :
  nodeCountNode domainConfig = S (nodeCount (DomainConfig_Children domainConfig)).
Proof. destruct domainConfig; reflexivity. Qed.

Lemma depthNode_eq (domainConfig : DomainConfig) :
  depthNode domainConfig = S (forestDepth (DomainConfig_Children domainConfig)).
Proof. destruct domainConfig; reflexivity. Qed.

Lemma noNilNode_eq (domainConfig : DomainConfig) :
  noNilNode domainConfig = noNilForest (DomainConfig_Children domainConfig).
Proof. destruct domainConfig; reflexivity. Qed.

(** Induction over a forest: a node is reached through the list of its
    parent, and its children form a forest again. *)
Lemma forest_ind (P : list (option DomainConfig) -> Prop) :
  P [] ->
  (forall rest, P rest -> P (None :: rest)) ->
  (forall domainConfig rest,
      P (DomainConfig_Children domainConfig) -> P rest -> P (Some domainConfig :: rest)) ->
  forall forest, P forest.
Proof.
  intros Hnil Hnone Hsome.
  assert (Hnode : forall domainConfig, P (DomainConfig_Children domainConfig)).
  { fix IH 1. intros [c ds t p children]. simpl.
    induction children as [|[child|] rest IHrest].
    - exact Hnil.
    - apply Hsome; [apply IH | exact IHrest].
    - apply Hnone. exact IHrest. }
  induction forest as [|[domainConfig|] rest IHrest].
  - exact Hnil.
  - apply Hsome; [apply Hnode | exact IHrest].
  - apply Hnone. exact IHrest.
Qed.

(** The flattening of a forest succeeds exactly when no node pointer is
    nil, and then it holds every node of the forest. *)
Lemma flatten_total (forest : list (option DomainConfig)) :
  noNilForest forest = true ->
  exists l, flattenDomainConfig forest = Some l.
Proof.
  induction forest as [| rest IH | domainConfig rest IHc IHr] using forest_ind;
    simpl; intros H.
  - exists []. reflexivity.
  - discriminate.
  - apply andb_prop in H as [Hc Hr]. rewrite noNilNode_eq in Hc.
    destruct (IHc Hc) as [lc Elc]. destruct (IHr Hr) as [lr Elr].
    rewrite flattenNode_eq, Elc, Elr. simpl. eauto.
Qed.

Lemma flatten_nil_panics (forest : list (option DomainConfig)) :
  noNilForest forest = false -> flattenDomainConfig forest = None.
Proof.
  induction forest as [| rest IH | domainConfig rest IHc IHr] using forest_ind;
    simpl; intros H.
  - discriminate.
  - reflexivity.
  - rewrite flattenNode_eq. apply andb_false_iff in H as [Hc | Hr].
    + rewrite noNilNode_eq in Hc. rewrite (IHc Hc). reflexivity.
    + rewrite (IHr Hr).
      destruct (flattenDomainConfig (DomainConfig_Children domainConfig)); reflexivity.
Qed.

Lemma flatten_length (forest : list (option DomainConfig)) :
  forall l, flattenDomainConfig forest = Some l -> List.length l = nodeCount forest.
Proof.
  induction forest as [| rest IH | domainConfig rest IHc IHr] using forest_ind;
    simpl; intros l H.
  - injection H as <-. reflexivity.
  - discriminate.
  - rewrite flattenNode_eq in H.
    destruct (flattenDomainConfig (DomainConfig_Children domainConfig)) as [lc|];
      [|discriminate].
    destruct (flattenDomainConfig rest) as [lr|]; [|discriminate].
    simpl in H. injection H as <-.
    rewrite nodeCountNode_eq. simpl. rewrite length_app, (IHc lc), (IHr lr); reflexivity.
Qed.

Lemma flattenNode_chain (n : nat) :
  exists l, flattenNode (chain n) = Some l /\ List.length l = S n.
Proof.
  induction n as [|n [l [E L]]].
  - exists [chain 0]. split; reflexivity.
  - exists (chain (S n) :: l). split; [|simpl; rewrite L; reflexivity].
    rewrite flattenNode_eq.
    change (DomainConfig_Children (chain (S n))) with [Some (chain n)].
    cbn [flattenDomainConfig]. rewrite E. cbn [bind]. rewrite app_nil_r. reflexivity.
Qed.

Lemma flatten_chain (n : nat) :
  exists l, flattenDomainConfig [Some (chain n)] = Some l /\ List.length l = S n.
Proof.
  destruct (flattenNode_chain n) as [l [E L]]. exists l. split; [|exact L].
  cbn [flattenDomainConfig]. rewrite E. cbn [bind]. rewrite app_nil_r. reflexivity.
Qed.

(** C1, as stated, fails: whatever the two bounds are, a chain of nested
    domain configs that is longer than the node bound is flattened whole. *)
Lemma C1_flattening_is_unbounded :
  ~ exists maxDepth maxNodes, flatteningBounded maxDepth maxNodes.
Proof.
  intros [maxDepth [maxNodes H]].
  destruct (flatten_chain maxNodes) as [l [E L]].
  destruct (H _ _ E) as [Hlen _]. lia.
Qed.

(** C1, amended: the flattening enforces no bound on depth or on the number
    of nodes.  For every forest without nil pointers it returns a sequence
    that holds every node of the forest, however deep or wide the forest
    is; nothing is truncated. *)
Theorem C1_flattening_is_complete (forest : list (option DomainConfig)) :
  noNilForest forest = true ->
  exists l, flattenDomainConfig forest = Some l /\ List.length l = nodeCount forest.
Proof.
  intros H. destruct (flatten_total forest H) as [l E].
  exists l. split; [exact E | exact (flatten_length forest l E)].
Qed.

Lemma C1_flattening_is_complete_witness :
  noNilForest [Some (chain 3); Some (chain 0)] = true /\
  exists l, flattenDomainConfig [Some (chain 3); Some (chain 0)] = Some l /\
            List.length l = 5%nat.
Proof.
  split; [reflexivity|].
  exact (C1_flattening_is_complete [Some (chain 3); Some (chain 0)] eq_refl).
Defined.

(** ** The SDK version mapper *)

(** C8, as stated, fails: the target SDK integer 0 is mapped to the major
    version 13, not to 1 (and the mapper has no error result). *)
Lemma C8_sdk_zero_is_not_clamped :
  SDKVersionToAndroidMajor 0 = 13 /\ SDKVersionToAndroidMajor 0 <> 1.
Proof. split; [reflexivity | discriminate]. Qed.

(** C8, amended: for every target SDK integer below 1 the mapper returns,
    without panicking, the major version 13 of its default case, the value
    it also returns above the highest known SDK integer. *)
Theorem C8_sdk_below_one_is_latest (sdkVersion : Z) :
  sdkVersion < 1 -> SDKVersionToAndroidMajor sdkVersion = 13.
Proof.
  intros H. destruct sdkVersion as [|p|p]; [reflexivity | lia | reflexivity].
Qed.

Lemma C8_sdk_below_one_is_latest_witness :
  -4 < 1 /\ SDKVersionToAndroidMajor (-4) = 13.
Proof.
  split; [lia | apply (C8_sdk_below_one_is_latest (-4)); lia].
Defined.

(** ** No network security configuration *)

(** C7: without a network security configuration and with
    [usesCleartextTraffic] unset, the target SDK 30 yields exactly the
    missing-NSC risk and the target SDK 21 exactly the cleartext risk with
    the reason of the defaults. *)
Theorem C7_nsc_absent_cleartext_unset
    (now : time.Time) (file : string) (m : Manifest) (apk : Collaborators) :
  Application_UsesCleartextTraffic (Manifest_Application m) = None ->
  (UsesSDK_TargetSDKVersion (Manifest_UsesSDK m) = 30 ->
   option_map Risks (Analyze now file m None apk) =
   Some [mkRisk RiskNSCMissing
           "Manifest does not specify NSC where target Android version supports it."])
  /\
  (UsesSDK_TargetSDKVersion (Manifest_UsesSDK m) = 21 ->
   option_map Risks (Analyze now file m None apk) =
   Some [mkRisk RiskCleartext "Manifest defaults permit cleartext traffic."]).
Proof.
  intros Hunset. unfold Analyze, check, manifestRisks. cbn.
  rewrite Hunset. split; intros ->; reflexivity.
Qed.

Lemma C7_nsc_absent_cleartext_unset_witness :
  option_map Risks (Analyze 0 "a.apk" (sampleManifest 30) None sampleApk) =
  Some [mkRisk RiskNSCMissing
          "Manifest does not specify NSC where target Android version supports it."]
  /\
  option_map Risks (Analyze 0 "a.apk" (sampleManifest 21) None sampleApk) =
  Some [mkRisk RiskCleartext "Manifest defaults permit cleartext traffic."].
Proof.
  split.
  - apply (proj1 (C7_nsc_absent_cleartext_unset 0 "a.apk" (sampleManifest 30) sampleApk eq_refl)).
    reflexivity.
  - apply (proj2 (C7_nsc_absent_cleartext_unset 0 "a.apk" (sampleManifest 21) sampleApk eq_refl)).
    reflexivity.
Defined.

(** ** The debuggable attribute *)

(** C10: two inputs that differ only in the tri-state [debuggable] of the
    application yield the same risks, from [check] on any analysis and from
    [Analyze]. *)
Theorem C10_debuggable_is_ignored
    (now : time.Time) (file name : string) (major : Z) (risks : list Risk)
    (dflt : AndroidDefaults) (usesSDK : UsesSDK)
    (appName label nscPath : string) (cleartext debuggable1 debuggable2 : option bool)
    (nsc : option NetworkSecurityConfig) (apk : Collaborators) :
  let m1 := mkManifest usesSDK (mkApplication appName label nscPath cleartext debuggable1) in
  let m2 := mkManifest usesSDK (mkApplication appName label nscPath cleartext debuggable2) in
  check (mkAnalysis file name major risks dflt m1 nsc apk) now =
  check (mkAnalysis file name major risks dflt m2 nsc apk) now
  /\
  option_map Risks (Analyze now file m1 nsc apk) =
  option_map Risks (Analyze now file m2 nsc apk).
Proof.
  intros m1 m2. split; [reflexivity|].
  unfold Analyze. cbv zeta.
  match goal with
  | |- option_map _ (bind ?c1 _) = option_map _ (bind ?c2 _) =>
      change c2 with c1; destruct c1; reflexivity
  end.
Qed.

(** ** Which risks each part of [check] can append *)

Lemma RiskType_eqb_eq (a b : RiskType) : RiskType_eqb a b = true <-> a = b.
Proof. split; [destruct a, b; simpl; congruence | intros ->; destruct b; reflexivity]. Qed.













(** ** The loop over the flattened nodes *)




(** ** Totality on inputs without nil pointers *)








(** ** Pinned certificates *)



(** ** Expiration of pin sets *)


















(** ** The wall clock *)






(** ** Resolution of trust-anchor sources *)








(** ** The user store and proxy certificates as trust anchors *)


(** C3 does not hold of the code: the loop over the trust anchors of a
    flattened node has no case for the source ["user"].  A node that
    trusts the user store yields no risk, where the base config with the
    same trust anchors yields the user-anchors risk; and no entry with
    the source ["user"] makes the loop of the domain configs append
    anything. *)
Theorem C3_user_anchor_in_domain_config :
  check (sampleAnalysis 30 (Some nscUserInDomain)) (time.Date 2030 1 1) = Some [] /\
  check (sampleAnalysis 30 (Some nscUserInBase)) (time.Date 2030 1 1) =
    Some [mkRisk RiskUserAnchors "NSC base config trust anchors (index: 0) allow user CAs."] /\
  forall (E : Collaborators) (section : string) (overridePins : option bool),
    domainAnchor E section (Some (mkCertificates "user" overridePins)) = Some [].
Proof. repeat split. Qed.


(** ** The models of the Go library functions on known values *)

Example SDKVersionToAndroidMajor_30 : SDKVersionToAndroidMajor 30 = 11.
Proof. reflexivity. Qed.

Example SDKVersionToAndroidMajor_21 : SDKVersionToAndroidMajor 21 = 5.
Proof. reflexivity. Qed.

Example SDKVersionToAndroidMajor_40 : SDKVersionToAndroidMajor 40 = 13.
Proof. reflexivity. Qed.

Example Date_epoch : time.Date 1970 1 1 = 0.
Proof. reflexivity. Qed.

Example daysSinceEpoch_2000_03_01 : time.daysSinceEpoch 2000 3 1 = 11017.
Proof. reflexivity. Qed.

Example daysSinceEpoch_2024_02_29 : time.daysSinceEpoch 2024 2 29 = 19782.
Proof. reflexivity. Qed.

Example four_hundred_days : time.Date 2031 2 5 - time.Date 2030 1 1 = 400 * 24 * time.Hour.
Proof. reflexivity. Qed.

Example Parse_no_such_day : time.Parse_2006_01_02 "2023-02-29" = None.
Proof. reflexivity. Qed.

Example Parse_leap_day :
  time.Parse_2006_01_02 "2024-02-29" = Some (19782 * 24 * time.Hour).
Proof. reflexivity. Qed.

Example Parse_empty : time.Parse_2006_01_02 EmptyString = None.
Proof. reflexivity. Qed.

Example Parse_other_layout : time.Parse_2006_01_02 "2024/02/29" = None.
Proof. reflexivity. Qed.

Example ParseInt_resource_id : strconv.ParseInt_16_32 "7f010000" = Some 2130771968.
Proof. reflexivity. Qed.

Example ParseInt_not_hex : strconv.ParseInt_16_32 "zz" = None.
Proof. reflexivity. Qed.

Example ParseInt_out_of_range : strconv.ParseInt_16_32 "80000000" = None.
Proof. reflexivity. Qed.

Example ParseInt_lowest : strconv.ParseInt_16_32 "-80000000" = Some (-2147483648).
Proof. reflexivity. Qed.

Example uint32_wraps : strconv.uint32 (-1) = 4294967295.
Proof. reflexivity. Qed.

Example fmt_d_12 : fmt.d 12 = "12"%string.
Proof. reflexivity. Qed.

Example Contains_proxy :
  strings.Contains (strings.ToLower "CN=MitmProxy CA") "proxy" = true.
Proof. reflexivity. Qed.

Example HasPrefix_http :
  strings.HasPrefix "http://example.com" "http" = true /\
  strings.HasPrefix "example.com" "http" = false.
Proof. split; reflexivity. Qed.

(** ** [check] on the sample configurations *)

(** Leaf A pins a key for 400 more days and leaf B has no pin set: no
    risk at all for a target SDK of 30. *)
Example check_pinned_400_days_out :
  check (sampleAnalysis 30 (Some nscPinned)) (time.Date 2030 1 1) = Some [].
Proof. reflexivity. Qed.

(** One nanosecond more than ten days before the expiration there is no
    expiration risk; ten days before, there is. *)
Example check_pinned_just_outside_ten_days :
  check (sampleAnalysis 30 (Some nscPinned)) (time.Date 2031 1 26 - 1) = Some [].
Proof. reflexivity. Qed.

Example check_unpinned_sdk_21 :
  check (sampleAnalysis 21 (Some nscUnpinned)) (time.Date 2030 1 1) =
  Some [mkRisk RiskCleartext "NSC base config defaults permit cleartext traffic.";
        mkRisk RiskUnpinned "NSC domain config does not contain pinned certificates."].
Proof. reflexivity. Qed.

(** A nil node pointer makes the flattening, and with it [check], panic. *)
Example check_nil_node_panics :
  check (sampleAnalysis 30 (Some (mkNetworkSecurityConfig None [Some leafA; None] None)))
        (time.Date 2030 1 1) = None.
Proof. reflexivity. Qed.

(** ** Readings of the clock that cannot be told apart *)

Lemma sameVerdicts_refl (now : time.Time) (nsc : option NetworkSecurityConfig) :
  sameVerdicts now now nsc = true.
Proof.
  unfold sameVerdicts. destruct nsc as [n|]; [|reflexivity].
  destruct (flattenDomainConfig (NSC_DomainConfig n)) as [l|]; [|reflexivity].
  induction l as [|domainConfig rest IH]; [reflexivity|].
  simpl. rewrite eqb_reflx. exact IH.
Qed.

Lemma sameVerdicts_without_pin_sets (now1 now2 : time.Time) (n : NetworkSecurityConfig)
    (domainConfigs : list DomainConfig) :
  flattenDomainConfig (NSC_DomainConfig n) = Some domainConfigs ->
  Forall (fun domainConfig => DomainConfig_PinSet domainConfig = None) domainConfigs ->
  sameVerdicts now1 now2 (Some n) = true.
Proof.
  unfold sameVerdicts. intros -> H.
  induction H as [|domainConfig rest Hd _ IH]; [reflexivity|].
  simpl. unfold expiredNode at 1 2. rewrite Hd. exact IH.
Qed.

(** ** Entries that fail to resolve, among others *)

(** In the base config the entry ["@zz"] appends nothing and the user
    store after it is reported at its own index; in the domain config the
    entries ["@zz"] and [0x7f010001] (a file the archive does not hold)
    append nothing and the proxy certificate after them is reported. *)
Example check_unresolved_among_others :
  check (sampleAnalysis 30
           (Some (mkNetworkSecurityConfig
                    (Some (mkBaseConfig (Some false)
                             (Some (mkTrustAnchors
                                      [Some (mkCertificates "@zz" None);
                                       Some (mkCertificates "user" None)]))))
                    [Some (mkDomainConfig None []
                             (Some (mkTrustAnchors
                                      [Some (mkCertificates "@zz" None);
                                       Some (mkCertificates "@7f010001" None);
                                       Some (mkCertificates "@7f010000" None)]))
                             (DomainConfig_PinSet leafA) [])]
                    None)))
        (time.Date 2030 1 1) =
  Some [mkRisk RiskUserAnchors "NSC base config trust anchors (index: 1) allow user CAs.";
        mkRisk RiskUserAnchors
          ("NSC domain config sub config (index: 0) trust anchors contain proxy tool CA with subject "
             ++ fmt.dquote ++ "CN=mitmproxy,O=mitmproxy" ++ fmt.dquote ++ ".")].
Proof. reflexivity. Qed.

(** The sample analysis is the one that [Analyze] builds. *)
Lemma Analyze_sampleAnalysis (now : time.Time) (targetSdkVersion : Z)
    (nsc : option NetworkSecurityConfig) :
  option_map Risks (Analyze now "a.apk" (sampleManifest targetSdkVersion) nsc sampleApk) =
  check (sampleAnalysis targetSdkVersion nsc) now.
Proof.
  unfold Analyze. cbv zeta.
  match goal with
  | |- option_map _ (bind ?c _) = ?d => change d with c; destruct c; reflexivity
  end.
Qed.

(** * Further properties of the code *)

(** ** The SDK version mapper and the defaults that [Analyze] derives *)

(** The table of [SDKVersionToAndroidMajor] by its thresholds, for the
    SDK integers from 1 on. *)
Lemma SDKVersionToAndroidMajor_steps (v : Z) :
  1 <= v ->
  SDKVersionToAndroidMajor v =
  if v <? 5 then 1 else if v <? 11 then 2 else if v <? 14 then 3
  else if v <? 21 then 4 else if v <? 23 then 5 else if v <? 24 then 6
  else if v <? 26 then 7 else if v <? 28 then 8 else if v <? 29 then 9
  else if v <? 30 then 10 else if v <? 31 then 11 else if v <? 33 then 12
  else 13.
Proof.
  intros H. destruct v as [|p|p]; [lia | | lia].
  do 6 (try destruct p as [p|p|]); reflexivity.
Qed.

Lemma SDKVersionToAndroidMajor_default (v : Z) :
  v < 1 -> SDKVersionToAndroidMajor v = 13.
Proof. intros H. destruct v as [|p|p]; [reflexivity | lia | reflexivity]. Qed.

(** Every SDK integer falls in one row of the table. *)
Lemma SDKVersionToAndroidMajor_table (v : Z) :
  (v < 1 /\ SDKVersionToAndroidMajor v = 13) \/
  (1 <= v < 5 /\ SDKVersionToAndroidMajor v = 1) \/
  (5 <= v < 11 /\ SDKVersionToAndroidMajor v = 2) \/
  (11 <= v < 14 /\ SDKVersionToAndroidMajor v = 3) \/
  (14 <= v < 21 /\ SDKVersionToAndroidMajor v = 4) \/
  (21 <= v < 23 /\ SDKVersionToAndroidMajor v = 5) \/
  (v = 23 /\ SDKVersionToAndroidMajor v = 6) \/
  (24 <= v < 26 /\ SDKVersionToAndroidMajor v = 7) \/
  (26 <= v < 28 /\ SDKVersionToAndroidMajor v = 8) \/
  (v = 28 /\ SDKVersionToAndroidMajor v = 9) \/
  (v = 29 /\ SDKVersionToAndroidMajor v = 10) \/
  (v = 30 /\ SDKVersionToAndroidMajor v = 11) \/
  (31 <= v < 33 /\ SDKVersionToAndroidMajor v = 12) \/
  (33 <= v /\ SDKVersionToAndroidMajor v = 13).
Proof.
  destruct (Z_lt_le_dec v 1) as [H|H].
  - left. split; [exact H | exact (SDKVersionToAndroidMajor_default v H)].
  - right. rewrite (SDKVersionToAndroidMajor_steps v H).
    repeat match goal with
           | |- context [if ?x <? ?y then _ else _] => destruct (Z.ltb_spec x y)
           end; lia.
Qed.


Lemma major_below_9 (v : Z) :
  (SDKVersionToAndroidMajor v <? 9) = (1 <=? v) && (v <=? 27).
Proof.
  apply eq_true_iff_eq. rewrite andb_true_iff, Z.ltb_lt, !Z.leb_le.
  destruct (SDKVersionToAndroidMajor_table v)
    as [H|[H|[H|[H|[H|[H|[H|[H|[H|[H|[H|[H|[H|H]]]]]]]]]]]]]; lia.
Qed.

Lemma major_from_7 (v : Z) :
  (7 <=? SDKVersionToAndroidMajor v) = (v <? 1) || (24 <=? v).
Proof.
  apply eq_true_iff_eq. rewrite orb_true_iff, Z.ltb_lt, !Z.leb_le.
  destruct (SDKVersionToAndroidMajor_table v)
    as [H|[H|[H|[H|[H|[H|[H|[H|[H|[H|[H|[H|[H|H]]]]]]]]]]]]]; lia.
Qed.

(** X1: From the SDK integer 1 on, the mapper is non-decreasing and stays
    within 1..13; it is 13 from 33 on. *)
Theorem SDKVersionToAndroidMajor_monotone (v w : Z) :
  1 <= v -> v <= w ->
  1 <= SDKVersionToAndroidMajor v /\
  SDKVersionToAndroidMajor v <= SDKVersionToAndroidMajor w /\
  SDKVersionToAndroidMajor w <= 13 /\
  (33 <= v -> SDKVersionToAndroidMajor v = 13).
Proof.
  intros Hv Hw.
  rewrite (SDKVersionToAndroidMajor_steps v Hv).
  rewrite (SDKVersionToAndroidMajor_steps w) by lia.
  repeat match goal with
         | |- context [if ?x <? ?y then _ else _] => destruct (Z.ltb_spec x y)
         end; lia.
Qed.

Lemma SDKVersionToAndroidMajor_monotone_witness :
  1 <= SDKVersionToAndroidMajor 23 /\
  SDKVersionToAndroidMajor 23 <= SDKVersionToAndroidMajor 28 /\
  SDKVersionToAndroidMajor 28 <= 13 /\
  (33 <= 23 -> SDKVersionToAndroidMajor 23 = 13).
Proof. apply (SDKVersionToAndroidMajor_monotone 23 28); lia. Defined.

(** [check] does not read the field [Risks] of its receiver. *)
Lemma check_ignores_Risks (file name : string) (major : Z) (risks1 risks2 : list Risk)
    (dflt : AndroidDefaults) (m : Manifest) (nsc : option NetworkSecurityConfig)
    (apk : Collaborators) (now : time.Time) :
  check (mkAnalysis file name major risks1 dflt m nsc apk) now =
  check (mkAnalysis file name major risks2 dflt m nsc apk) now.
Proof. reflexivity. Qed.




(** ** The branch without a network security configuration *)

Lemma Analyze_no_nsc (now : time.Time) (file : string) (m : Manifest)
    (apk : Collaborators) :
  let v := UsesSDK_TargetSDKVersion (Manifest_UsesSDK m) in
  option_map Risks (Analyze now file m None apk) =
  Some ((if (v <? 1) || (24 <=? v)
         then [mkRisk RiskNSCMissing
                 "Manifest does not specify NSC where target Android version supports it."]
         else [])
        ++
        match Application_UsesCleartextTraffic (Manifest_Application m) with
        | None =>
            if (1 <=? v) && (v <=? 27)
            then [mkRisk RiskCleartext "Manifest defaults permit cleartext traffic."]
            else []
        | Some true => [mkRisk RiskCleartext "Manifest permits cleartext traffic."]
        | Some false => []
        end).
Proof.
  intros v. unfold Analyze, check, manifestRisks. cbn.
  fold v. rewrite major_below_9, major_from_7. reflexivity.
Qed.

(** X3: Without a configuration [Analyze] always returns, and the risks are
    a function of the target SDK integer and of [usesCleartextTraffic]:
    the missing-NSC risk for the SDK integers from 24 on and below 1,
    followed by the cleartext risk when the attribute is true, or when it
    is unset and the SDK integer lies in 1..27. *)
Theorem Analyze_without_nsc (now : time.Time) (file : string) (m : Manifest)
    (apk : Collaborators) :
  let v := UsesSDK_TargetSDKVersion (Manifest_UsesSDK m) in
  option_map Risks (Analyze now file m None apk) =
  Some ((if (v <? 1) || (24 <=? v)
         then [mkRisk RiskNSCMissing
                 "Manifest does not specify NSC where target Android version supports it."]
         else [])
        ++
        match Application_UsesCleartextTraffic (Manifest_Application m) with
        | None =>
            if (1 <=? v) && (v <=? 27)
            then [mkRisk RiskCleartext "Manifest defaults permit cleartext traffic."]
            else []
        | Some true => [mkRisk RiskCleartext "Manifest permits cleartext traffic."]
        | Some false => []
        end).
Proof. exact (Analyze_no_nsc now file m apk). Qed.


(** ** The flattening: panics, composition and members *)

(** X4: The flattening panics exactly when some node pointer of the forest,
    at any depth, is nil: its nil test guards the append and not the
    dereference that follows. *)
Theorem flatten_panics_iff_nil (forest : list (option DomainConfig)) :
  flattenDomainConfig forest = None <-> noNilForest forest = false.
Proof.
  split.
  - intros H. destruct (noNilForest forest) eqn:E; [|reflexivity].
    destruct (flatten_total forest E) as [l El]. congruence.
  - apply flatten_nil_panics.
Qed.

(** X5: The flattening of two forests side by side is the flattening of the
    first followed by that of the second. *)
Theorem flatten_app (forest1 forest2 : list (option DomainConfig)) :
  flattenDomainConfig (forest1 ++ forest2) =
  (a <- flattenDomainConfig forest1 ;;
   b <- flattenDomainConfig forest2 ;;
   Some (a ++ b)).
Proof.
  induction forest1 as [|[domainConfig|] rest IH]; cbn [flattenDomainConfig app].
  - cbn [bind]. destruct (flattenDomainConfig forest2); reflexivity.
  - rewrite IH. destruct (flattenNode domainConfig) as [a|]; [|reflexivity]. cbn [bind].
    destruct (flattenDomainConfig rest) as [b|]; [|reflexivity]. cbn [bind].
    destruct (flattenDomainConfig forest2) as [c|]; [|reflexivity]. cbn [bind].
    rewrite app_assoc. reflexivity.
  - reflexivity.
Qed.

Lemma flatten_members_aux (forest : list (option DomainConfig)) :
  forall l, flattenDomainConfig forest = Some l ->
            forall domainConfig, In domainConfig l <-> InForest domainConfig forest.
Proof.
  induction forest as [| rest IH | parent rest IHc IHr] using forest_ind;
    cbn [flattenDomainConfig]; intros l H dc.
  - injection H as <-. split; [intros [] | intros Hi; inversion Hi].
  - discriminate.
  - rewrite flattenNode_eq in H.
    destruct (flattenDomainConfig (DomainConfig_Children parent)) as [lc|];
      [|discriminate].
    destruct (flattenDomainConfig rest) as [lr|]; [|discriminate].
    cbn [bind] in H. injection H as <-.
    cbn [app In]. rewrite in_app_iff, (IHc lc eq_refl dc), (IHr lr eq_refl dc).
    split.
    + intros [<- | [Hc | Hr]].
      * apply InForest_root.
      * apply InForest_below. exact Hc.
      * apply InForest_later. exact Hr.
    + intros Hi. inversion Hi; subst; auto.
Qed.

(** X6: The flattened sequence holds exactly the nodes of the forest: the
    roots and, recursively, the nodes below them. *)
Theorem flatten_members (forest : list (option DomainConfig)) (l : list DomainConfig)
    (domainConfig : DomainConfig) :
  flattenDomainConfig forest = Some l ->
  (In domainConfig l <-> InForest domainConfig forest).
Proof. intros H. exact (flatten_members_aux forest l H domainConfig). Qed.

Lemma flatten_members_witness :
  In (chain 0) [chain 1; chain 0; leafB] <-> InForest (chain 0) [Some (chain 1); Some leafB].
Proof.
  exact (flatten_members [Some (chain 1); Some leafB] [chain 1; chain 0; leafB]
           (chain 0) eq_refl).
Defined.

(** X7: A forest without nesting is flattened to itself: the index that a
    reason carries is then the position of the domain config among the
    top-level ones. *)
Theorem flatten_without_nesting (l : list DomainConfig) :
  Forall (fun domainConfig => DomainConfig_Children domainConfig = []) l ->
  flattenDomainConfig (map Some l) = Some l.
Proof.
  induction 1 as [|domainConfig rest Hd _ IH]; [reflexivity|].
  cbn [map flattenDomainConfig]. rewrite flattenNode_eq, Hd, IH. reflexivity.
Qed.

Lemma flatten_without_nesting_witness :
  flattenDomainConfig (map Some [leafA; leafB]) = Some [leafA; leafB].
Proof.
  apply (flatten_without_nesting [leafA; leafB]).
  repeat constructor.
Defined.

(** ** A census of the risks of a configuration *)

Lemma count_cons {A : Type} (f : A -> bool) (a : A) (l : list A) :
  count f (a :: l) = ((if f a then 1 else 0) + count f l)%nat.
Proof. unfold count. simpl. destruct (f a); reflexivity. Qed.


Lemma countType_le (t : RiskType) (l : list Risk) : (countType t l <= List.length l)%nat.
Proof. unfold countType. apply filter_length_le. Qed.









(** ** Cleartext traffic with a configuration present *)

Lemma In_singleton_if {A : Type} (b : bool) (x y : A) :
  In x (if b then [y] else []) <-> b = true /\ y = x.
Proof. destruct b; simpl; intuition congruence. Qed.




(** ** Trust anchors *)





(** ** Malformed hostnames *)





Example check_nscUrl :
  check (sampleAnalysis 30 (Some nscUrl)) (time.Date 2030 1 1) =
  Some [mkRisk RiskMalformedNSC (malformedReason 0 "http://example.com")].
Proof. reflexivity. Qed.

(** ** The size of the output *)







(** ** What [check] leaves unread when a configuration is present *)

Lemma readNode_eq (domainConfig : DomainConfig) :
  readNode domainConfig =
  mkDomainConfig None
    (map (option_map readDomain) (DomainConfig_Domains domainConfig))
    (readAnchors (DomainConfig_TrustAnchors domainConfig))
    (option_map readPinSet (DomainConfig_PinSet domainConfig))
    (readForest (DomainConfig_Children domainConfig)).
Proof. destruct domainConfig; reflexivity. Qed.

Lemma flatten_readForest (forest : list (option DomainConfig)) :
  flattenDomainConfig (readForest forest) =
  option_map (map readNode) (flattenDomainConfig forest).
Proof.
  induction forest as [| rest IH | domainConfig rest IHc IHr] using forest_ind;
    cbn [readForest flattenDomainConfig].
  - reflexivity.
  - reflexivity.
  - rewrite !flattenNode_eq, IHr.
    rewrite readNode_eq at 1. cbn [DomainConfig_Children]. rewrite IHc.
    destruct (flattenDomainConfig (DomainConfig_Children domainConfig)) as [lc|];
      [|reflexivity].
    destruct (flattenDomainConfig rest) as [lr|]; [|reflexivity].
    cbn [option_map bind map]. rewrite map_app. reflexivity.
Qed.

Lemma domainsRisks_read (section : string) (l : list (option Domain)) :
  domainsRisks section (map (option_map readDomain) l) = domainsRisks section l.
Proof.
  induction l as [|[domain|] rest IH]; cbn [map option_map domainsRisks].
  - reflexivity.
  - rewrite IH. reflexivity.
  - reflexivity.
Qed.

Lemma domainAnchors_read (E : Collaborators) (section : string)
    (l : list (option Certificates)) :
  domainAnchors E section (map (option_map readCertificates) l) =
  domainAnchors E section l.
Proof.
  induction l as [|[certs|] rest IH]; cbn [map option_map domainAnchors].
  - reflexivity.
  - rewrite IH. reflexivity.
  - reflexivity.
Qed.

Lemma subConfig_read (E : Collaborators) (now : time.Time) (section : string) (i : nat)
    (domainConfig : DomainConfig) (pinned : bool) :
  subConfig E now section i (readNode domainConfig) pinned =
  subConfig E now section i domainConfig pinned.
Proof.
  rewrite readNode_eq. unfold subConfig, hasPins, pinSetRisks, readAnchors.
  cbn [DomainConfig_Domains DomainConfig_TrustAnchors DomainConfig_PinSet].
  rewrite domainsRisks_read.
  destruct (DomainConfig_TrustAnchors domainConfig) as [anchors|];
    cbn [option_map TrustAnchors_Certificates];
    [rewrite domainAnchors_read|];
    destruct (DomainConfig_PinSet domainConfig) as [pinSet|];
    cbn [option_map readPinSet PinSet_Expiration PinSet_Pins];
    try rewrite length_map; reflexivity.
Qed.

Lemma subConfigs_read (E : Collaborators) (now : time.Time) (section : string)
    (l : list DomainConfig) :
  forall (i : nat) (pinned : bool),
    subConfigs E now section i (map readNode l) pinned =
    subConfigs E now section i l pinned.
Proof.
  induction l as [|domainConfig rest IH]; intros i pinned; cbn [map subConfigs].
  - reflexivity.
  - rewrite subConfig_read.
    destruct (subConfig E now section i domainConfig pinned) as [[r p]|]; [|reflexivity].
    cbn [bind]. rewrite IH. reflexivity.
Qed.

Lemma domainConfigRisks_read (E : Collaborators) (now : time.Time) (section : string)
    (forest : list (option DomainConfig)) :
  domainConfigRisks E now section (readForest forest) =
  domainConfigRisks E now section forest.
Proof.
  unfold domainConfigRisks. rewrite flatten_readForest.
  destruct (flattenDomainConfig forest) as [l|]; [|reflexivity].
  cbn [option_map bind]. rewrite subConfigs_read. reflexivity.
Qed.

(** X13: Two analyses with a configuration each get the same result from
    [check] when they agree on the defaults, on the collaborators and on
    what [check] reads of the configuration.  The manifest, the
    [cleartextTrafficPermitted] of the domain configs, [includeSubdomains],
    the [overridePins] of the trust anchors of the domain configs, the
    contents of the pins and the debug overrides have no influence. *)
Theorem check_reads_view (a1 a2 : Analysis) (now : time.Time)
    (n1 n2 : NetworkSecurityConfig) :
  nsc a1 = Some n1 ->
  nsc a2 = Some n2 ->
  readNSC n1 = readNSC n2 ->
  defaults a1 = defaults a2 ->
  apk a1 = apk a2 ->
  check a1 now = check a2 now.
Proof.
  intros H1 H2 Hview Hd Ha. unfold check. rewrite H1, H2, Hd, Ha. cbv zeta.
  rewrite <- (domainConfigRisks_read _ _ _ (NSC_DomainConfig n1)).
  rewrite <- (domainConfigRisks_read _ _ _ (NSC_DomainConfig n2)).
  change (readForest (NSC_DomainConfig n1)) with (NSC_DomainConfig (readNSC n1)).
  change (readForest (NSC_DomainConfig n2)) with (NSC_DomainConfig (readNSC n2)).
  change (NSC_BaseConfig n1) with (NSC_BaseConfig (readNSC n1)).
  change (NSC_BaseConfig n2) with (NSC_BaseConfig (readNSC n2)).
  rewrite Hview. reflexivity.
Qed.

Lemma check_reads_view_witness :
  check (mkAnalysis "a.apk" "com.example.App" 11 [] (mkAndroidDefaults false true)
           (sampleManifest 30) (Some nscPinned) sampleApk) (time.Date 2031 1 26) =
  check (mkAnalysis "b.apk" "com.example.Other" 11 [] (mkAndroidDefaults false true)
           cleartextManifest (Some nscPinnedVariant) sampleApk) (time.Date 2031 1 26).
Proof.
  apply (check_reads_view
           (mkAnalysis "a.apk" "com.example.App" 11 [] (mkAndroidDefaults false true)
              (sampleManifest 30) (Some nscPinned) sampleApk)
           (mkAnalysis "b.apk" "com.example.Other" 11 [] (mkAndroidDefaults false true)
              cleartextManifest (Some nscPinnedVariant) sampleApk)
           (time.Date 2031 1 26) nscPinned nscPinnedVariant); reflexivity.
Defined.

(** ** The statistics of [main] *)

Lemma reasonGet_put (reasonMap : ReasonMap) (reason reason' : string)
    (apps : list Analysis) :
  reasonGet (reasonPut reasonMap reason apps) reason' =
  if (reason =? reason')%string then apps else reasonGet reasonMap reason'.
Proof.
  induction reasonMap as [|[k old] rest IH]; cbn [reasonPut reasonGet].
  - destruct (reason =? reason')%string; reflexivity.
  - destruct (String.eqb_spec k reason) as [->|Hk]; cbn [reasonGet].
    + destruct (reason =? reason')%string; reflexivity.
    + rewrite IH. destruct (String.eqb_spec k reason') as [->|Hk'];
        [|reflexivity].
      destruct (String.eqb_spec reason reason') as [->|]; [contradiction | reflexivity].
Qed.

Lemma total_put (reasonMap : ReasonMap) (reason : string) (apps : list Analysis) :
  (total (reasonPut reasonMap reason apps) + List.length (reasonGet reasonMap reason) =
   total reasonMap + List.length apps)%nat.
Proof.
  unfold total.
  induction reasonMap as [|[k old] rest IH]; cbn [reasonPut reasonGet sumOver snd].
  - cbn [List.length]. lia.
  - destruct (k =? reason)%string; cbn [sumOver snd]; lia.
Qed.

Lemma riskGet_put (riskMap : RiskMap) (t t' : RiskType) (reasonMap : ReasonMap) :
  riskGet (riskPut riskMap t reasonMap) t' =
  if RiskType_eqb t t' then reasonMap else riskGet riskMap t'.
Proof.
  induction riskMap as [|[k old] rest IH]; cbn [riskPut riskGet].
  - destruct (RiskType_eqb t t'); reflexivity.
  - destruct (RiskType_eqb k t) eqn:Ek; cbn [riskGet].
    + apply RiskType_eqb_eq in Ek. subst k.
      destruct (RiskType_eqb t t'); reflexivity.
    + rewrite IH. destruct (RiskType_eqb k t') eqn:Ek'; [|reflexivity].
      apply RiskType_eqb_eq in Ek'. subst k.
      destruct (RiskType_eqb t t') eqn:Ett; [|reflexivity].
      apply RiskType_eqb_eq in Ett. subst t'.
      assert (Hr : RiskType_eqb t t = true) by (apply RiskType_eqb_eq; reflexivity).
      congruence.
Qed.

Lemma addRisk_get (riskMap : RiskMap) (analysis : Analysis) (risk : Risk)
    (t : RiskType) (reason : string) :
  reasonGet (riskGet (addRisk riskMap analysis risk) t) reason =
  reasonGet (riskGet riskMap t) reason
  ++ (if sameRisk t reason risk then [analysis] else []).
Proof.
  unfold addRisk, sameRisk. rewrite riskGet_put.
  destruct (RiskType_eqb (Risk_Type risk) t) eqn:Et; cbn [andb].
  - apply RiskType_eqb_eq in Et. subst t. rewrite reasonGet_put.
    destruct (String.eqb_spec (Risk_Reason risk) reason) as [->|];
      [reflexivity | rewrite app_nil_r; reflexivity].
  - rewrite app_nil_r. reflexivity.
Qed.

Lemma addRisk_total (riskMap : RiskMap) (analysis : Analysis) (risk : Risk)
    (t : RiskType) :
  total (riskGet (addRisk riskMap analysis risk) t) =
  (total (riskGet riskMap t) + if RiskType_eqb (Risk_Type risk) t then 1 else 0)%nat.
Proof.
  unfold addRisk. rewrite riskGet_put.
  destruct (RiskType_eqb (Risk_Type risk) t) eqn:Et; [|lia].
  apply RiskType_eqb_eq in Et. subst t.
  pose proof (total_put (riskGet riskMap (Risk_Type risk)) (Risk_Reason risk)
                (reasonGet (riskGet riskMap (Risk_Type risk)) (Risk_Reason risk)
                   ++ [analysis])) as H.
  rewrite length_app in H. cbn [List.length] in H. lia.
Qed.

Lemma addRisks_fold (analysis : Analysis) (risks : list Risk) (t : RiskType)
    (reason : string) :
  forall riskMap : RiskMap,
    let result := fold_left (fun riskMap risk => addRisk riskMap analysis risk)
                    risks riskMap in
    total (riskGet result t) = (total (riskGet riskMap t) + countType t risks)%nat /\
    reasonGet (riskGet result t) reason =
      reasonGet (riskGet riskMap t) reason
      ++ repeat analysis (count (sameRisk t reason) risks).
Proof.
  induction risks as [|risk rest IH]; intros riskMap; cbn [fold_left].
  - cbv zeta. split; [unfold countType; cbn; lia | rewrite app_nil_r; reflexivity].
  - destruct (IH (addRisk riskMap analysis risk)) as [Ht Hg]. cbv zeta.
    rewrite Ht, Hg, addRisk_total, addRisk_get, count_cons. split.
    + unfold countType. cbn [filter].
      destruct (RiskType_eqb (Risk_Type risk) t); cbn [List.length]; lia.
    + rewrite <- app_assoc. f_equal.
      destruct (sameRisk t reason risk); reflexivity.
Qed.

(** X15: The statistics count every risk once: the total of a risk type is
    the number of risks of that type over all analyses, and the list
    kept for a type and a reason holds an analysis once for each of its
    risks with that type and reason (twice for a risk it has twice), the
    analyses in the order of the files. *)
Theorem statistics_counts (analyses : list Analysis) (t : RiskType) (reason : string) :
  total (riskGet (statistics analyses) t) =
    sumOver (fun analysis => countType t (Risks analysis)) analyses /\
  reasonGet (riskGet (statistics analyses) t) reason =
    flat_map (fun analysis =>
                repeat analysis (count (sameRisk t reason) (Risks analysis)))
             analyses.
Proof.
  unfold statistics.
  assert (H : forall riskMap : RiskMap,
             total (riskGet (fold_left addAnalysis analyses riskMap) t) =
               (total (riskGet riskMap t)
                + sumOver (fun analysis => countType t (Risks analysis)) analyses)%nat /\
             reasonGet (riskGet (fold_left addAnalysis analyses riskMap) t) reason =
               reasonGet (riskGet riskMap t) reason
               ++ flat_map (fun analysis =>
                              repeat analysis
                                (count (sameRisk t reason) (Risks analysis)))
                    analyses).
  { induction analyses as [|analysis rest IH]; intros riskMap;
      cbn [fold_left sumOver flat_map].
    - split; [lia | rewrite app_nil_r; reflexivity].
    - destruct (IH (addAnalysis riskMap analysis)) as [Ht Hg].
      destruct (addRisks_fold analysis (Risks analysis) t reason riskMap) as [Ht1 Hg1].
      cbv zeta in Ht1, Hg1. unfold addAnalysis in *.
      rewrite Ht, Hg, Ht1, Hg1. split; [lia | rewrite app_assoc; reflexivity]. }
  destruct (H []) as [Ht Hg]. split; [exact Ht | exact Hg].
Qed.

(** ** [ParseAPK] and the configuration that [main] loads *)



(** The ways in which [main] ends up without a configuration. *)
Lemma loadNSC_None (R : ApkReader) (zip : ZipReader R) (m : Manifest) :
  let path := Application_NetworkSecurityConfig (Manifest_Application m) in
  path = EmptyString \/
  ZipReader_File R zip path = None \/
  (exists zipFile, ZipReader_File R zip path = Some zipFile /\
     (ZipFile_Open R zipFile <> None \/
      (exists err, ParseXml R zipFile = inr err) \/
      (exists buffer, ParseXml R zipFile = inl buffer /\
         snd (Unmarshal_NSC R buffer NetworkSecurityConfig_zero) <> None))) ->
  loadNSC R zip m = None.
Proof.
  cbv zeta. unfold loadNSC.
  intros [-> | [-> | [zipFile [-> [Ho | [[err ->] | [buffer [-> Hu]]]]]]]].
  - reflexivity.
  - destruct (_ =? _)%string; reflexivity.
  - destruct (_ =? _)%string; [reflexivity|].
    destruct (ZipFile_Open R zipFile); [reflexivity | contradiction].
  - destruct (_ =? _)%string; [reflexivity|].
    destruct (ZipFile_Open R zipFile); reflexivity.
  - destruct (_ =? _)%string; [reflexivity|].
    destruct (ZipFile_Open R zipFile); [reflexivity|].
    destruct (Unmarshal_NSC R buffer NetworkSecurityConfig_zero) as [n [e|]];
      [reflexivity | contradiction].
Qed.

(** X17: A file whose manifest names no configuration, or one that is not
    found, does not open, does not decode or does not unmarshal, is
    analysed as a file without configuration: [Analyze] returns, and the
    risks are those of the manifest alone.  From the target SDK integer
    24 on (and below 1) the missing-NSC risk is among them although the
    manifest names a configuration. *)
Theorem main_unloadable_nsc (R : ApkReader) (zip : ZipReader R) (m : Manifest)
    (apk : Collaborators) (now : time.Time) (file : string) :
  let path := Application_NetworkSecurityConfig (Manifest_Application m) in
  let v := UsesSDK_TargetSDKVersion (Manifest_UsesSDK m) in
  path = EmptyString \/
  ZipReader_File R zip path = None \/
  (exists zipFile, ZipReader_File R zip path = Some zipFile /\
     (ZipFile_Open R zipFile <> None \/
      (exists err, ParseXml R zipFile = inr err) \/
      (exists buffer, ParseXml R zipFile = inl buffer /\
         snd (Unmarshal_NSC R buffer NetworkSecurityConfig_zero) <> None))) ->
  option_map Risks (Analyze now file m (loadNSC R zip m) apk) =
  Some ((if (v <? 1) || (24 <=? v)
         then [mkRisk RiskNSCMissing
                 "Manifest does not specify NSC where target Android version supports it."]
         else [])
        ++
        match Application_UsesCleartextTraffic (Manifest_Application m) with
        | None =>
            if (1 <=? v) && (v <=? 27)
            then [mkRisk RiskCleartext "Manifest defaults permit cleartext traffic."]
            else []
        | Some true => [mkRisk RiskCleartext "Manifest permits cleartext traffic."]
        | Some false => []
        end).
Proof.
  intros path v H. rewrite (loadNSC_None R zip m H).
  exact (Analyze_no_nsc now file m apk).
Qed.

Lemma main_unloadable_nsc_witness :
  option_map Risks
    (Analyze (time.Date 2030 1 1) "a.apk" (sampleManifest 30)
       (loadNSC brokenReader tt (sampleManifest 30)) sampleApk) =
  Some [mkRisk RiskNSCMissing
          "Manifest does not specify NSC where target Android version supports it."].
Proof.
  apply (main_unloadable_nsc brokenReader tt (sampleManifest 30) sampleApk
           (time.Date 2030 1 1) "a.apk").
  right. left. reflexivity.
Defined.

(** ** Descriptions of the risk types *)

(** X18: Distinct risk types have distinct descriptions, and the one type
    without a description of its own is [RiskPinningExpiration], which
    falls to the default case. *)
Theorem Description_distinct (t1 t2 : RiskType) :
  (Description t1 = Description t2 <-> t1 = t2) /\
  (Description t1 = "(unknown)"%string <-> t1 = RiskPinningExpiration).
Proof.
  split; split.
  - destruct t1, t2; intros H; try reflexivity; discriminate H.
  - intros ->. reflexivity.
  - destruct t1; intros H; try reflexivity; discriminate H.
  - intros ->. reflexivity.
Qed.

(** ** The passing of time *)





